(** * Script builder of fedora-things-to-do: a shallow embedding of builder.py

    The module turns a catalog of system options and installable
    applications (the "distro data") and a user selection into blocks of
    shell text.  Python dictionaries are association lists in insertion
    order, exceptions are an error sum, and the one in-place update of the
    caller's selection (check_dependencies) is threaded through as the
    selection after the call. *)

From Stdlib Require Import String Ascii List Bool Arith Lia.
Import ListNotations.
Local Open Scope list_scope.
Local Open Scope string_scope.

Set Implicit Arguments.

(** ** Python strings *)

Module PyStr.

(** [s.startswith(pat)]: [pat] is an initial segment of [s]. *)
Fixpoint startswith (s pat : string) {struct pat} : bool :=
  match pat with
  | EmptyString => true
  | String p pat' =>
      match s with
      | EmptyString => false
      | String c s' => Ascii.eqb c p && startswith s' pat'
      end
  end.

(** [pat in s] on strings: [pat] occurs somewhere in [s]. *)
Fixpoint contains (pat s : string) : bool :=
  startswith s pat ||
  match s with
  | EmptyString => false
  | String _ s' => contains pat s'
  end.

(** [sep.join(parts)]. *)
Fixpoint join (sep : string) (parts : list string) : string :=
  match parts with
  | [] => ""
  | [p] => p
  | p :: rest => p ++ sep ++ join sep rest
  end.

End PyStr.

(** ** Python dictionaries

    A [dict] keeps its items in insertion order, as Python's does; a lookup
    returns the first item carrying the key and an assignment replaces that
    item where it stands, or adds a new item at the end. *)

Module PyDict.

Definition dict (V : Type) : Type := list (string * V).

Section Ops.
Variable V : Type.

(** [d.get(k)], [None] when the key is absent. *)
Fixpoint get (d : dict V) (k : string) : option V :=
  match d with
  | [] => None
  | (k', v) :: d' => if String.eqb k' k then Some v else get d' k
  end.

(** [k in d]. *)
Definition mem (d : dict V) (k : string) : bool :=
  match get d k with Some _ => true | None => false end.

(** [d[k] = v]. *)
Fixpoint set (d : dict V) (k : string) (v : V) : dict V :=
  match d with
  | [] => [(k, v)]
  | (k', v') :: d' =>
      if String.eqb k' k then (k', v) :: d' else (k', v') :: set d' k v
  end.

(** [d.keys()]. *)
Definition keys (d : dict V) : list string := map fst d.

End Ops.

End PyDict.

Import PyStr PyDict.


(** ** Exceptions *)

Inductive exn : Type :=
| KeyError (key : string)      (* [d[k]] on a dictionary without [k] *)
| TypeError.                   (* [s[k]] on a string *)

Inductive result (A : Type) : Type :=
| Ok (a : A)
| Raise (e : exn).
Arguments Ok {A} a.
Arguments Raise {A} e.

Definition bind {A B : Type} (r : result A) (k : A -> result B) : result B :=
  match r with
  | Ok a => k a
  | Raise e => Raise e
  end.

Notation "x <- r ;; k" := (bind r (fun x => k))
  (at level 61, r at next level, right associativity).

(** [d[k]]: the value, or KeyError. *)
Definition getitem {V : Type} (d : dict V) (k : string) : result V :=
  match get d k with
  | Some v => Ok v
  | None => Raise (KeyError k)
  end.

(** A key of the top-level catalog object that may be missing. *)
Definition getcat {V : Type} (c : option V) (k : string) : result V :=
  match c with
  | Some v => Ok v
  | None => Raise (KeyError k)
  end.

(** ** Redirection policy *)

Inductive OutputMode : Type := Normal | Quiet.

(** [" > /dev/null 2>&1" if output_mode == "Quiet" else ""] *)
Definition quiet_redirect (output_mode : OutputMode) : string :=
  match output_mode with
  | Quiet => " > /dev/null 2>&1"
  | Normal => ""
  end.

Definition no_redirect_patterns : list string :=
  ["log_message"; "echo"; "printf"; "read"; "prompt_"; "EOF"].

Definition should_quiet_redirect (cmd : string) : bool :=
  negb (existsb (fun pattern => startswith cmd pattern || contains "EOF" cmd)
                no_redirect_patterns).

(** ** Data model

    The catalog that [session_config.get_distro_data()] returns is passed
    to every function as [distro_data].  A key is optional in the records
    below where the source tests for it ([in], [.get]) or where the object
    it belongs to may lack it; the other keys are read with [d[k]] on
    well-formed data and are plain fields. *)

(** The value of a ["command"] key: one string or a list of strings
    ([isinstance(commands, list)]). *)
Inductive Commands : Type :=
| Single (cmd : string)
| Multi (cmds : list string).

Record SysOption : Type := {
  so_name : string;
  so_description : string;
  so_command : Commands
}.

(** An entry of the system_config category: an option object, or a plain
    string such as the category's own ["description"]. *)
Inductive SysValue : Type :=
| SysText (text : string)
| SysOpt (o : SysOption).

Record EssentialApp : Type := {
  ea_name : string;
  ea_command : string
}.

Record EssentialCat : Type := {
  ess_apps : list EssentialApp
}.

Record InstallType : Type := {
  it_command : Commands
}.

Record App : Type := {
  app_name : string;
  app_description : string;
  app_command : option Commands;
  app_installation_types : option (dict InstallType)
}.

Record SubCategory : Type := {
  sub_name : string;
  sub_apps : dict App
}.

(** An application category.  [generate_options] reads its root keys
    ["name"] and ["apps"] (of the latter only the key list);
    [build_app_install] indexes it by sub-category name, and [cat_subs]
    holds those entries, which are the keys other than the two root ones. *)
Record AppCategory : Type := {
  cat_name : option string;
  cat_apps : option (list string);
  cat_subs : dict SubCategory
}.

(** The catalog: its two special categories, and every other root key in
    [categories]. *)
Record Catalog : Type := {
  system_config : option (dict SysValue);
  essential_apps : option EssentialCat;
  categories : dict AppCategory
}.

(** [{}], what [load_app_data] returns when the file cannot be loaded. *)
Definition empty_catalog : Catalog :=
  {| system_config := None; essential_apps := None; categories := [] |}.

(** [not distro_data] *)
Definition catalog_is_empty (distro_data : Catalog) : bool :=
  match system_config distro_data, essential_apps distro_data, categories distro_data with
  | None, None, [] => true
  | _, _, _ => false
  end.

(** One selected application: [{"selected": ..., "installation_type": ...}];
    the value of ["installation_type"] may be [None]. *)
Record AppChoice : Type := {
  selected : option bool;
  installation_type : option (option string)
}.

Record Selection : Type := {
  sel_system_config : dict bool;
  sel_essential_apps : dict bool;
  sel_categories : dict (dict (dict AppChoice));
  sel_custom_script : option string
}.

Definition all_std_categories : list string :=
  ["essential_apps"; "internet_apps"; "productivity_apps"; "multimedia_apps";
   "gaming_apps"; "management_apps"; "customization"].

Definition additional_categories : list string :=
  ["internet_apps"; "productivity_apps"; "multimedia_apps";
   "gaming_apps"; "management_apps"; "customization"].

Definition PLACEHOLDERS : dict string := [("hostname", "{hostname}")].

(** The line feed and the double quote. *)
Definition nl : string := String (ascii_of_nat 10) "".
Definition dq : string := String (ascii_of_nat 34) "".

(** [d.get(k, default)] *)
Definition get_default {V : Type} (d : dict V) (k : string) (default : V) : V :=
  match get d k with
  | Some v => v
  | None => default
  end.

Definition from_option {V : Type} (o : option V) (default : V) : V :=
  match o with
  | Some v => v
  | None => default
  end.

(** A loop that appends lines to a list and may raise on the way. *)
Fixpoint for_each {A : Type} (body : A -> result (list string)) (xs : list A)
    (acc : list string) : result (list string) :=
  match xs with
  | [] => Ok acc
  | x :: xs' => lines <- body x ;; for_each body xs' (acc ++ lines)%list
  end.

(** ** generate_options *)

Record CategoryOptions : Type := {
  co_name : string;
  co_apps : list string
}.

(** A value of the [options] dictionary: a list of keys, the [{}] the
    dictionary literal starts a category with, or [{"name", "apps"}]. *)
Inductive OptValue : Type :=
| OptKeys (ks : list string)
| OptEmpty
| OptCat (c : CategoryOptions).

Definition empty_category : AppCategory :=
  {| cat_name := None; cat_apps := None; cat_subs := [] |}.

Definition generate_options (distro_data : Catalog) : result (dict OptValue) :=
  if catalog_is_empty distro_data then Ok []
  else
    sc <- getcat (system_config distro_data) "system_config" ;;
    ea <- getcat (essential_apps distro_data) "essential_apps" ;;
    let options :=
      [("system_config",
        OptKeys (filter (fun key => negb (String.eqb key "description")) (keys sc)));
       ("essential_apps", OptKeys (map ea_name (ess_apps ea)));
       ("internet_apps", OptEmpty);
       ("productivity_apps", OptEmpty);
       ("multimedia_apps", OptEmpty);
       ("gaming_apps", OptEmpty);
       ("management_apps", OptEmpty);
       ("customization", OptEmpty)] in
    Ok (fold_left
          (fun options category =>
             let category_data :=
               get_default (categories distro_data) category empty_category in
             set options category
               (OptCat {| co_name := from_option (cat_name category_data) "";
                          co_apps := from_option (cat_apps category_data) [] |}))
          additional_categories options).

(** ** check_dependencies *)

Definition with_system_config (options : Selection) (sc : dict bool) : Selection :=
  {| sel_system_config := sc;
     sel_essential_apps := sel_essential_apps options;
     sel_categories := sel_categories options;
     sel_custom_script := sel_custom_script options |}.

(** The [any([...])] over the three codec options. *)
Definition codecs_selected (sc : dict bool) : bool :=
  existsb (fun b : bool => b)
    [get_default sc "install_multimedia_codecs" false;
     get_default sc "install_intel_codecs" false;
     get_default sc "install_amd_codecs" false].

(** The selection is updated in place and returned: the result is also the
    caller's selection after the call. *)
Definition check_dependencies (options : Selection) : Selection :=
  if codecs_selected (sel_system_config options)
  then with_system_config options (set (sel_system_config options) "enable_rpmfusion" true)
  else options.

(** ** build_system_upgrade *)

Definition build_system_upgrade (options : Selection) (output_mode : OutputMode) : string :=
  join nl
    ["log_message " ++ dq ++ "Performing system upgrade... This may take a while..." ++ dq;
     "dnf upgrade -y" ++ quiet_redirect output_mode;
     ""].

(** ** build_system_config *)

Definition is_quiet (output_mode : OutputMode) : bool :=
  match output_mode with Quiet => true | Normal => false end.

(** What the loop body does to one command before appending it. *)
Definition config_command (option : string) (output_mode : OutputMode) (cmd : string) : string :=
  let cmd :=
    if String.eqb option "set_hostname" && contains "hostnamectl set-hostname" cmd
    then cmd ++ " " ++ get_default PLACEHOLDERS "hostname" ""
    else cmd in
  if is_quiet output_mode && should_quiet_redirect cmd
  then cmd ++ quiet_redirect output_mode
  else cmd.

(** The lines one item of the selection adds to [config_commands]. *)
Definition config_item (system_config : dict SysValue) (output_mode : OutputMode)
    (item : string * bool) : result (list string) :=
  let (option, enabled) := item in
  if enabled && mem system_config option then
    entry <- getitem system_config option ;;
    match entry with
    | SysText _ => Raise TypeError
    | SysOpt o =>
        let body :=
          match so_command o with
          | Multi commands => map (config_command option output_mode) commands
          | Single commands => [config_command option output_mode commands]
          end in
        Ok (("# " ++ so_description o) :: (body ++ [""])%list)
    end
  else Ok [].

(** The text, and the caller's selection after the call. *)
Definition build_system_config (distro_data : Catalog) (options : Selection)
    (output_mode : OutputMode) : result string * Selection :=
  let options := check_dependencies options in
  (system_config <- getcat (system_config distro_data) "system_config" ;;
   config_commands <-
     for_each (config_item system_config output_mode) (sel_system_config options) [] ;;
   Ok (join nl config_commands),
   options).

(** ** build_app_install *)

Definition log_message (text : string) : string :=
  "log_message " ++ dq ++ text ++ dq.

(** [f"{cmd}{quiet_redirect if should_quiet_redirect(cmd) else ''}"] *)
Definition install_command (output_mode : OutputMode) (cmd : string) : string :=
  cmd ++ (if should_quiet_redirect cmd then quiet_redirect output_mode else "").

Definition command_list (commands : Commands) : list string :=
  match commands with
  | Multi cmds => cmds
  | Single cmd => [cmd]
  end.

(** Python's truth value of the [install_type] read from the selection. *)
Definition truthy_type (install_type : option string) : option string :=
  match install_type with
  | Some t => if String.eqb t "" then None else Some t
  | None => None
  end.

(** The commands of one selected application: the chosen variant's, or the
    application's own ["command"]. *)
Definition app_commands (app_data : App) (category_data : dict AppChoice)
    (app_id : string) : result Commands :=
  match app_installation_types app_data with
  | Some installation_types =>
      choice <- getitem category_data app_id ;;
      install_type <- getcat (installation_type choice) "installation_type" ;;
      match truthy_type install_type with
      | Some t =>
          if mem installation_types t
          then variant <- getitem installation_types t ;; Ok (it_command variant)
          else getcat (app_command app_data) "command"
      | None => getcat (app_command app_data) "command"
      end
  | None => getcat (app_command app_data) "command"
  end.

(** The lines of one selected application. *)
Definition app_install (sub : SubCategory) (category_data : dict AppChoice)
    (output_mode : OutputMode) (app_id : string) : result (list string) :=
  app_data <- getitem (sub_apps sub) app_id ;;
  commands <- app_commands app_data category_data app_id ;;
  Ok ([log_message ("Installing " ++ app_name app_data ++ "...")]
      ++ map (install_command output_mode) (command_list commands)
      ++ [log_message (app_name app_data ++ " installed successfully.")])%list.

(** [[app_id for app_id, app_data in category_data.items()
      if app_data.get('selected', False)]] *)
Definition selected_apps (category_data : dict AppChoice) : list string :=
  map fst (filter (fun item => from_option (selected (snd item)) false) category_data).

(** The lines of one sub-category of the selection. *)
Definition subcategory_install (distro_data : Catalog) (category : string)
    (output_mode : OutputMode) (item : string * dict AppChoice) : result (list string) :=
  let (category_name, category_data) := item in
  match selected_apps category_data with
  | [] => Ok []
  | category_apps =>
      cat <- getitem (categories distro_data) category ;;
      sub <- getitem (cat_subs cat) category_name ;;
      apps <- for_each (app_install sub category_data output_mode) category_apps
                [("# Install " ++ sub_name sub ++ " applications")] ;;
      Ok (apps ++ [""])%list
  end.

Definition add_app_install_commands (distro_data : Catalog) (options : Selection)
    (output_mode : OutputMode) (category : string) : result (list string) :=
  for_each (subcategory_install distro_data category output_mode)
    (get_default (sel_categories options) category []) [].

(** The block of the essential applications, given the selected ones. *)
Definition essential_block (essential_apps : list EssentialApp)
    (output_mode : OutputMode) : list string :=
  match essential_apps with
  | [] => []
  | _ =>
      ["# Install essential applications";
       log_message "Installing essential applications...";
       "dnf install -y " ++ join " " (map ea_name essential_apps)
         ++ quiet_redirect output_mode;
       log_message "Essential applications installed successfully.";
       ""]
  end.

(** [[app for app in distro_data["essential_apps"]["apps"]
      if options["essential_apps"].get(app["name"], False)]] *)
Definition selected_essential (ess : EssentialCat) (options : Selection) : list EssentialApp :=
  filter (fun app => get_default (sel_essential_apps options) (ea_name app) false)
         (ess_apps ess).

Definition build_app_install (distro_data : Catalog) (options : Selection)
    (output_mode : OutputMode) : result string :=
  ess <- getcat (essential_apps distro_data) "essential_apps" ;;
  install_commands <-
    for_each (add_app_install_commands distro_data options output_mode)
      additional_categories
      (essential_block (selected_essential ess options) output_mode) ;;
  Ok (join nl install_commands).

(** ** build_custom_script *)

(** [c.isspace()] for a character below 256: tab to carriage return, the
    four separators 28 to 31, the space, NEL and the no-break space.  These
    are the characters [str.strip()] removes. *)
Definition isspace (c : ascii) : bool :=
  let n := nat_of_ascii c in
  ((9 <=? n) && (n <=? 13) || (28 <=? n) && (n <=? 32) || (n =? 133) || (n =? 160))%nat.

Fixpoint lstrip (s : string) : string :=
  match s with
  | String c s' => if isspace c then lstrip s' else s
  | EmptyString => ""
  end.

Fixpoint rstrip (s : string) : string :=
  match s with
  | String c s' =>
      match rstrip s' with
      | EmptyString => if isspace c then "" else String c ""
      | r => String c r
      end
  | EmptyString => ""
  end.

(** [s.strip()] *)
Definition strip (s : string) : string := rstrip (lstrip s).

Definition build_custom_script (options : Selection) (output_mode : OutputMode) : string :=
  let custom_script := strip (from_option (sel_custom_script options) "") in
  match custom_script with
  | EmptyString => ""
  | _ => custom_script ++ nl
  end.

(** A string of white space only. *)
Fixpoint all_space (s : string) : bool :=
  match s with
  | String c s' => isspace c && all_space s'
  | EmptyString => true
  end.

(** ** Comparing results *)

(** Two results end alike: both return, or both raise the same exception. *)
Definition same_outcome {A B : Type} (r1 : result A) (r2 : result B) : Prop :=
  match r1, r2 with
  | Ok _, Ok _ => True
  | Raise e1, Raise e2 => e1 = e2
  | _, _ => False
  end.

(** ** Blocks of the system-config text *)

(** The block of one enabled option: the comment, its commands, a blank line. *)
Definition option_block (option : string) (output_mode : OutputMode) (o : SysOption) : list string :=
  ("# " ++ so_description o)
    :: (map (config_command option output_mode) (command_list (so_command o)) ++ [""])%list.

(** What one item of the selection contributes when nothing raises. *)
Definition item_block (system_config : dict SysValue) (output_mode : OutputMode)
    (item : string * bool) : list string :=
  if snd item then
    match get system_config (fst item) with
    | Some (SysOpt o) => option_block (fst item) output_mode o
    | _ => []
    end
  else [].

(** Following the specification's words: the entries of the catalog's
    system_config in the catalog's key order, each key that is enabled in
    the resolved selection giving the comment and the commands. *)
Definition spec_build_system_config_catalog_order (distro_data : Catalog)
    (options : Selection) (output_mode : OutputMode) : result string :=
  let options := check_dependencies options in
  system_config <- getcat (system_config distro_data) "system_config" ;;
  config_commands <-
    for_each (fun entry : string * SysValue =>
                config_item system_config output_mode
                  (fst entry, get_default (sel_system_config options) (fst entry) false))
             system_config [] ;;
  Ok (join nl config_commands).

(** ** Sample catalogs and selections *)

Definition two_option_catalog : Catalog :=
  {| system_config :=
       Some [("enable_rpmfusion",
              SysOpt {| so_name := "RPM Fusion"; so_description := "Enable RPM Fusion";
                        so_command := Single "dnf install -y rpmfusion-free-release" |});
             ("set_hostname",
              SysOpt {| so_name := "Hostname"; so_description := "Set the hostname";
                        so_command := Multi ["hostnamectl set-hostname"] |})];
     essential_apps := None;
     categories := [] |}.

Definition reversed_selection : Selection :=
  {| sel_system_config := [("set_hostname", true); ("enable_rpmfusion", true)];
     sel_essential_apps := []; sel_categories := []; sel_custom_script := None |}.

Definition stale_selection : Selection :=
  {| sel_system_config :=
       [("removed_option", true); ("set_hostname", true); ("install_amd_codecs", true)];
     sel_essential_apps := []; sel_categories := []; sel_custom_script := None |}.

Definition git_vim_catalog : Catalog :=
  {| system_config := None;
     essential_apps :=
       Some {| ess_apps := [ {| ea_name := "git"; ea_command := "n/a" |};
                             {| ea_name := "vim"; ea_command := "n/a" |} ] |};
     categories := [] |}.

Definition git_selection (vim : bool) : Selection :=
  {| sel_system_config := [];
     sel_essential_apps := [("git", true); ("vim", vim)];
     sel_categories := []; sel_custom_script := None |}.

Definition essential_only_catalog : Catalog :=
  {| system_config := None;
     essential_apps := Some {| ess_apps := [ {| ea_name := "git"; ea_command := "n/a" |} ] |};
     categories := [] |}.

Definition gaming_only_catalog : Catalog :=
  {| system_config := Some [("description", SysText "System configuration")];
     essential_apps := Some {| ess_apps := [] |};
     categories :=
       [("gaming_apps", {| cat_name := Some "Gaming"; cat_apps := Some ["steam"];
                           cat_subs := [] |})] |}.

Definition firefox_catalog : Catalog :=
  {| system_config := None;
     essential_apps := Some {| ess_apps := [] |};
     categories :=
       [("internet_apps",
         {| cat_name := None; cat_apps := None;
            cat_subs :=
              [("browsers",
                {| sub_name := "Browsers";
                   sub_apps :=
                     [("firefox",
                       {| app_name := "Firefox";
                          app_description := "Web browser";
                          app_command := Some (Single "dnf install -y firefox");
                          app_installation_types :=
                            Some [("flatpak",
                                   {| it_command :=
                                        Single "flatpak install -y flathub org.mozilla.firefox" |});
                                  ("rpm",
                                   {| it_command := Single "dnf install -y firefox-rpm" |})] |})]
                |})] |})] |}.

Definition firefox_selection (install_type : option (option string)) : Selection :=
  {| sel_system_config := [];
     sel_essential_apps := [];
     sel_categories :=
       [("internet_apps",
         [("browsers",
           [("firefox", {| selected := Some true; installation_type := install_type |})])])];
     sel_custom_script := None |}.

Definition firefox_lines (command : string) : string :=
  join nl ["# Install Browsers applications";
           "log_message " ++ dq ++ "Installing Firefox..." ++ dq;
           command;
           "log_message " ++ dq ++ "Firefox installed successfully." ++ dq;
           ""].

Definition codec_system_config : dict SysValue :=
  [("enable_rpmfusion",
    SysOpt {| so_name := "RPM Fusion"; so_description := "Enable RPM Fusion";
              so_command := Single "dnf install -y rpmfusion-free-release" |});
   ("install_amd_codecs",
    SysOpt {| so_name := "AMD"; so_description := "Install AMD codecs";
              so_command := Multi ["dnf swap -y mesa-va-drivers mesa-va-drivers-freeworld"] |});
   ("description", SysText "System configuration")].

Definition codec_catalog : Catalog :=
  {| system_config := Some codec_system_config;
     essential_apps := Some {| ess_apps := [] |};
     categories := [] |}.

(** * Properties *)

(** ** Strings *)

Lemma startswith_spec (s pat : string) :
  startswith s pat = true <-> exists rest, s = pat ++ rest.
Proof.
  revert s; induction pat as [|p pat IH]; intros s; simpl.
  - split; [intros _; now exists s | reflexivity].
  - destruct s as [|c s].
    + split; [discriminate | intros [rest H]; discriminate].
    + rewrite andb_true_iff, Ascii.eqb_eq, IH. split.
      * intros [-> [rest ->]]. now exists rest.
      * intros [rest H]. injection H as -> ->. split; [reflexivity | now exists rest].
Qed.

Lemma append_assoc (a b c : string) : (a ++ b) ++ c = a ++ (b ++ c).
Proof. induction a as [|x a IH]; simpl; [reflexivity | now rewrite IH]. Qed.

Lemma contains_spec (pat s : string) :
  contains pat s = true <-> exists pre post, s = pre ++ pat ++ post.
Proof.
  induction s as [|c s IH].
  - simpl. rewrite orb_false_r, startswith_spec. split.
    + intros [rest H]. now exists "", rest.
    + intros [pre [post H]]. destruct pre; simpl in H.
      * now exists post.
      * discriminate.
  - cbn [contains]. rewrite orb_true_iff, IH, startswith_spec. split.
    + intros [[rest H] | [pre [post H]]].
      * now exists "", rest.
      * exists (String c pre), post. simpl. now rewrite H.
    + intros [pre [post H]]. destruct pre as [|x pre]; simpl in H.
      * left. now exists post.
      * right. injection H as _ H. now exists pre, post.
Qed.

(** ** Dictionaries *)

Section DictFacts.
Variable V : Type.

Lemma get_set_same (d : dict V) k v : get (set d k v) k = Some v.
Proof.
  induction d as [|[k' v'] d IH]; simpl.
  - now rewrite String.eqb_refl.
  - destruct (String.eqb k' k) eqn:E; simpl; rewrite E; [reflexivity | exact IH].
Qed.

Lemma get_set_other (d : dict V) k k' v :
  k <> k' -> get (set d k v) k' = get d k'.
Proof.
  intros Hne. induction d as [|[k0 v0] d IH]; simpl.
  - destruct (String.eqb k k') eqn:E; [apply String.eqb_eq in E; contradiction | reflexivity].
  - destruct (String.eqb k0 k) eqn:E; simpl.
    + apply String.eqb_eq in E; subst k0.
      destruct (String.eqb k k') eqn:E'; [apply String.eqb_eq in E'; contradiction | reflexivity].
    + now rewrite IH.
Qed.

Lemma set_set_same (d : dict V) k v : set (set d k v) k v = set d k v.
Proof.
  induction d as [|[k' v'] d IH]; simpl.
  - now rewrite String.eqb_refl.
  - destruct (String.eqb k' k) eqn:E; simpl; rewrite E; [reflexivity | now rewrite IH].
Qed.

End DictFacts.

(** ** Loops *)

Section ForEach.
Variable A : Type.
Variable body : A -> result (list string).

Lemma for_each_acc (xs : list A) (acc : list string) :
  for_each body xs acc = (lines <- for_each body xs [] ;; Ok (acc ++ lines)%list).
Proof.
  revert acc; induction xs as [|x xs IH]; intros acc; simpl.
  - now rewrite app_nil_r.
  - destruct (body x) as [lines|e]; simpl; [|reflexivity].
    rewrite (IH (acc ++ lines)%list), (IH lines).
    destruct (for_each body xs []) as [rest|e]; simpl; [|reflexivity].
    now rewrite app_assoc.
Qed.

Lemma for_each_ok (f : A -> list string) (xs : list A) (acc : list string) :
  (forall x, In x xs -> body x = Ok (f x)) ->
  for_each body xs acc = Ok (acc ++ flat_map f xs)%list.
Proof.
  revert acc; induction xs as [|x xs IH]; intros acc H; simpl.
  - now rewrite app_nil_r.
  - rewrite (H x (or_introl eq_refl)); simpl.
    rewrite IH by (intros y Hy; apply H; now right).
    now rewrite app_assoc.
Qed.

Lemma for_each_filter (keep : A -> bool) (xs : list A) (acc : list string) :
  (forall x, In x xs -> keep x = false -> body x = Ok []) ->
  for_each body xs acc = for_each body (filter keep xs) acc.
Proof.
  revert acc; induction xs as [|x xs IH]; intros acc H; simpl; [reflexivity|].
  assert (Hxs : forall y, In y xs -> keep y = false -> body y = Ok [])
    by (intros y Hy; apply H; now right).
  destruct (keep x) eqn:K; simpl.
  - destruct (body x); simpl; [now apply IH | reflexivity].
  - rewrite (H x (or_introl eq_refl) K); simpl. rewrite app_nil_r. now apply IH.
Qed.

End ForEach.

(** ** Redirection policy *)

(** C3: should_quiet_redirect is false exactly on the commands that begin
    with log_message, echo, printf, read or prompt_, or that contain EOF
    anywhere; it is false on [log_message "x"], false on [cat << EOF],
    which begins with none of the five prefixes, and true on
    [dnf install -y foo]. *)
Theorem should_quiet_redirect_spec :
  (forall cmd : string,
      should_quiet_redirect cmd = false <->
      ((exists rest, cmd = "log_message" ++ rest) \/
       (exists rest, cmd = "echo" ++ rest) \/
       (exists rest, cmd = "printf" ++ rest) \/
       (exists rest, cmd = "read" ++ rest) \/
       (exists rest, cmd = "prompt_" ++ rest) \/
       (exists pre post, cmd = pre ++ "EOF" ++ post))) /\
  should_quiet_redirect ("log_message " ++ dq ++ "x" ++ dq) = false /\
  should_quiet_redirect "cat << EOF" = false /\
  existsb (startswith "cat << EOF")
          ["log_message"; "echo"; "printf"; "read"; "prompt_"] = false /\
  should_quiet_redirect "dnf install -y foo" = true.
Proof.
  split; [|repeat split; reflexivity].
  intros cmd. unfold should_quiet_redirect, no_redirect_patterns.
  rewrite negb_false_iff. cbn [existsb].
  rewrite !orb_true_iff, !startswith_spec, contains_spec.
  split.
  - intros H. decompose [or] H; clear H; try discriminate;
      try (match goal with H : exists rest, cmd = "EOF" ++ rest |- _ =>
             destruct H as [rest ->]; repeat right; now exists "", rest end);
      tauto.
  - intros H. decompose [or] H; clear H; tauto.
Qed.

(** ** Dependency resolver *)

Lemma codecs_selected_true (sc : dict bool) :
  codecs_selected sc = true <->
  (get sc "install_multimedia_codecs" = Some true \/
   get sc "install_intel_codecs" = Some true \/
   get sc "install_amd_codecs" = Some true).
Proof.
  unfold codecs_selected, get_default. cbn [existsb].
  rewrite orb_false_r, !orb_true_iff.
  destruct (get sc "install_multimedia_codecs") as [[|]|];
    destruct (get sc "install_intel_codecs") as [[|]|];
    destruct (get sc "install_amd_codecs") as [[|]|];
    intuition congruence.
Qed.

Lemma codecs_selected_set_rpmfusion (sc : dict bool) (b : bool) :
  codecs_selected (set sc "enable_rpmfusion" b) = codecs_selected sc.
Proof.
  unfold codecs_selected, get_default.
  now rewrite !get_set_other by discriminate.
Qed.

Lemma check_dependencies_idempotent (options : Selection) :
  check_dependencies (check_dependencies options) = check_dependencies options.
Proof.
  unfold check_dependencies.
  destruct (codecs_selected (sel_system_config options)) eqn:E.
  - cbn [with_system_config sel_system_config].
    rewrite codecs_selected_set_rpmfusion, E.
    unfold with_system_config; cbn.
    now rewrite set_set_same.
  - now rewrite E.
Qed.

(** C2: when one of install_multimedia_codecs, install_intel_codecs and
    install_amd_codecs is true in the selection's system_config,
    check_dependencies returns a selection whose enable_rpmfusion is true,
    whatever it was before; when none of them is true, it returns the
    selection as it was. *)
Theorem check_dependencies_spec (options : Selection) :
  ((get (sel_system_config options) "install_multimedia_codecs" = Some true \/
    get (sel_system_config options) "install_intel_codecs" = Some true \/
    get (sel_system_config options) "install_amd_codecs" = Some true) ->
   get (sel_system_config (check_dependencies options)) "enable_rpmfusion" = Some true) /\
  (get (sel_system_config options) "install_multimedia_codecs" <> Some true ->
   get (sel_system_config options) "install_intel_codecs" <> Some true ->
   get (sel_system_config options) "install_amd_codecs" <> Some true ->
   check_dependencies options = options).
Proof.
  unfold check_dependencies. split.
  - intros H. apply codecs_selected_true in H. rewrite H. cbn.
    apply get_set_same.
  - intros H1 H2 H3.
    destruct (codecs_selected (sel_system_config options)) eqn:E; [|reflexivity].
    apply codecs_selected_true in E. tauto.
Qed.

Lemma check_dependencies_spec_witness :
  get (sel_system_config
         (check_dependencies
            {| sel_system_config := [("enable_rpmfusion", false); ("install_intel_codecs", true)];
               sel_essential_apps := []; sel_categories := [];
               sel_custom_script := None |})) "enable_rpmfusion" = Some true /\
  check_dependencies
    {| sel_system_config := [("enable_rpmfusion", false); ("install_intel_codecs", false)];
       sel_essential_apps := []; sel_categories := []; sel_custom_script := None |}
  = {| sel_system_config := [("enable_rpmfusion", false); ("install_intel_codecs", false)];
       sel_essential_apps := []; sel_categories := []; sel_custom_script := None |}.
Proof.
  split.
  - apply (proj1 (check_dependencies_spec _)). right; left. reflexivity.
  - apply (proj2 (check_dependencies_spec _)); discriminate.
Defined.

(** ** The empty catalog *)

(** C10: on the empty catalog build_system_config raises the key error of
    'system_config' and build_app_install the key error of
    'essential_apps', for every selection and output mode; neither returns
    a text. *)
Theorem builders_raise_on_empty_catalog (options : Selection) (output_mode : OutputMode) :
  fst (build_system_config empty_catalog options output_mode)
    = Raise (KeyError "system_config") /\
  build_app_install empty_catalog options output_mode
    = Raise (KeyError "essential_apps").
Proof. split; reflexivity. Qed.

(** ** Building twice *)

(** C9: a second call of build_system_config on the selection the first
    call left behind returns the same result as the first, in Normal mode. *)
Theorem build_system_config_twice (distro_data : Catalog) (options : Selection) :
  fst (build_system_config distro_data
         (snd (build_system_config distro_data options Normal)) Normal)
  = fst (build_system_config distro_data options Normal).
Proof.
  unfold build_system_config; cbn [fst snd].
  now rewrite check_dependencies_idempotent.
Qed.

Example build_system_config_twice_augmented :
  let distro_data :=
    {| system_config :=
         Some [("enable_rpmfusion",
                SysOpt {| so_name := "RPM Fusion"; so_description := "Enable RPM Fusion";
                          so_command := Single "dnf install -y rpmfusion-free-release" |});
               ("install_amd_codecs",
                SysOpt {| so_name := "AMD"; so_description := "Install AMD codecs";
                          so_command := Multi ["dnf swap -y mesa-va-drivers mesa-va-drivers-freeworld"] |})];
       essential_apps := None; categories := [] |} in
  let options :=
    {| sel_system_config := [("install_amd_codecs", true)];
       sel_essential_apps := []; sel_categories := []; sel_custom_script := None |} in
  let first := build_system_config distro_data options Normal in
  sel_system_config (snd first) = [("install_amd_codecs", true); ("enable_rpmfusion", true)] /\
  fst first
    = Ok (join nl ["# Install AMD codecs";
                   "dnf swap -y mesa-va-drivers mesa-va-drivers-freeworld";
                   "";
                   "# Enable RPM Fusion";
                   "dnf install -y rpmfusion-free-release";
                   ""]) /\
  build_system_config distro_data (snd first) Normal = first.
Proof. repeat split; reflexivity. Qed.

(** ** System-config emitter *)

Lemma config_item_option (sc : dict SysValue) (m : OutputMode) (k : string) (o : SysOption) :
  get sc k = Some (SysOpt o) ->
  config_item sc m (k, true) = Ok (option_block k m o).
Proof.
  intros H. unfold config_item, mem, getitem. rewrite H. cbn.
  unfold option_block, command_list. now destruct (so_command o).
Qed.

Lemma config_item_absent (sc : dict SysValue) (m : OutputMode) (k : string) (enabled : bool) :
  get sc k = None -> config_item sc m (k, enabled) = Ok [].
Proof.
  intros H. unfold config_item, mem. rewrite H. now rewrite andb_false_r.
Qed.

Lemma config_item_disabled (sc : dict SysValue) (m : OutputMode) (k : string) :
  config_item sc m (k, false) = Ok [].
Proof. reflexivity. Qed.

Lemma config_item_block (sc : dict SysValue) (m : OutputMode) (item : string * bool) :
  (snd item = true -> forall text, get sc (fst item) <> Some (SysText text)) ->
  config_item sc m item = Ok (item_block sc m item).
Proof.
  destruct item as [k [|]]; cbn [fst snd]; intros H; unfold item_block; cbn [fst snd].
  - destruct (get sc k) as [[text|o]|] eqn:E.
    + now elim (H eq_refl text).
    + now apply config_item_option.
    + now apply config_item_absent.
  - apply config_item_disabled.
Qed.

Lemma config_items_blocks (sc : dict SysValue) (m : OutputMode) (items : dict bool) :
  (forall key text, In (key, true) items -> get sc key <> Some (SysText text)) ->
  for_each (config_item sc m) items [] = Ok (flat_map (item_block sc m) items).
Proof.
  intros Hopt. rewrite (for_each_ok _ (item_block sc m)); [reflexivity|].
  intros [k e] Hin. apply config_item_block; cbn [fst snd].
  intros -> text. now apply Hopt.
Qed.

(** C1, as stated, fails: with a catalog that declares enable_rpmfusion
    before set_hostname and a selection that lists set_hostname first, the
    emitted text has the set_hostname block first, which is not what an
    iteration of the catalog in its declared key order gives. *)
Lemma build_system_config_not_catalog_order :
  fst (build_system_config two_option_catalog reversed_selection Normal)
    = Ok (join nl ["# Set the hostname";
                   "hostnamectl set-hostname {hostname}";
                   "";
                   "# Enable RPM Fusion";
                   "dnf install -y rpmfusion-free-release";
                   ""]) /\
  spec_build_system_config_catalog_order two_option_catalog reversed_selection Normal
    = Ok (join nl ["# Enable RPM Fusion";
                   "dnf install -y rpmfusion-free-release";
                   "";
                   "# Set the hostname";
                   "hostnamectl set-hostname {hostname}";
                   ""]) /\
  fst (build_system_config two_option_catalog reversed_selection Normal)
    <> spec_build_system_config_catalog_order two_option_catalog reversed_selection Normal.
Proof. repeat split; try reflexivity. discriminate. Qed.

(** C1, amended: build_system_config goes through the items of the resolved
    selection's system_config in the selection's own order; each item that
    is enabled and whose key is an option of the catalog gives a comment
    line with the option's description, its commands in declared order and
    a blank line, so the enabled options appear in the selection's order. *)
Theorem build_system_config_selection_order (distro_data : Catalog) (options : Selection)
    (output_mode : OutputMode) (sc : dict SysValue) :
  system_config distro_data = Some sc ->
  (forall key text,
      In (key, true) (sel_system_config (check_dependencies options)) ->
      get sc key <> Some (SysText text)) ->
  fst (build_system_config distro_data options output_mode)
  = Ok (join nl (flat_map (item_block sc output_mode)
                          (sel_system_config (check_dependencies options)))).
Proof.
  intros Hsc Hopt. unfold build_system_config; cbn [fst]. rewrite Hsc; cbn [getcat bind].
  now rewrite config_items_blocks.
Qed.

Lemma build_system_config_selection_order_witness :
  fst (build_system_config two_option_catalog reversed_selection Quiet)
  = Ok (join nl ["# Set the hostname";
                 "hostnamectl set-hostname {hostname} > /dev/null 2>&1";
                 "";
                 "# Enable RPM Fusion";
                 "dnf install -y rpmfusion-free-release > /dev/null 2>&1";
                 ""]).
Proof.
  apply (@build_system_config_selection_order two_option_catalog reversed_selection Quiet
           [("enable_rpmfusion",
              SysOpt {| so_name := "RPM Fusion"; so_description := "Enable RPM Fusion";
                        so_command := Single "dnf install -y rpmfusion-free-release" |});
             ("set_hostname",
              SysOpt {| so_name := "Hostname"; so_description := "Set the hostname";
                        so_command := Multi ["hostnamectl set-hostname"] |})]).
  - reflexivity.
  - intros key text [H | [H | []]]; injection H as <-; discriminate.
Defined.

(** C8: an item of the selection whose key is absent from the catalog's
    system_config adds no line and raises nothing: the result is the one of
    the resolved selection restricted to the catalog's keys, and over a
    catalog whose system_config entries are all option objects no selection
    makes build_system_config raise. *)
Theorem absent_options_skipped (distro_data : Catalog) (options : Selection)
    (output_mode : OutputMode) (sc : dict SysValue) :
  system_config distro_data = Some sc ->
  (forall key enabled, get sc key = None ->
     config_item sc output_mode (key, enabled) = Ok []) /\
  fst (build_system_config distro_data options output_mode)
    = (config_commands <-
         for_each (config_item sc output_mode)
           (filter (fun item => mem sc (fst item))
                   (sel_system_config (check_dependencies options))) [] ;;
       Ok (join nl config_commands)) /\
  ((forall key text, get sc key <> Some (SysText text)) ->
   exists text, fst (build_system_config distro_data options output_mode) = Ok text).
Proof.
  intros Hsc. split; [|split].
  - intros key enabled H. now apply config_item_absent.
  - unfold build_system_config; cbn [fst]. rewrite Hsc; cbn [getcat bind].
    rewrite (for_each_filter _ (fun item => mem sc (fst item))); [reflexivity|].
    intros [k e] _; cbn [fst]. unfold mem.
    destruct (get sc k) eqn:E; [discriminate|]. intros _. now apply config_item_absent.
  - intros Hopt. eexists.
    unfold build_system_config; cbn [fst]. rewrite Hsc; cbn [getcat bind].
    rewrite config_items_blocks by (intros key text _; apply Hopt).
    reflexivity.
Qed.

Lemma absent_options_skipped_witness :
  config_item
    [("enable_rpmfusion",
      SysOpt {| so_name := "RPM Fusion"; so_description := "Enable RPM Fusion";
                so_command := Single "dnf install -y rpmfusion-free-release" |});
     ("set_hostname",
      SysOpt {| so_name := "Hostname"; so_description := "Set the hostname";
                so_command := Multi ["hostnamectl set-hostname"] |})]
    Normal ("removed_option", true) = Ok [] /\
  fst (build_system_config two_option_catalog stale_selection Normal)
    = Ok (join nl ["# Set the hostname";
                   "hostnamectl set-hostname {hostname}";
                   "";
                   "# Enable RPM Fusion";
                   "dnf install -y rpmfusion-free-release";
                   ""]).
Proof.
  pose proof (@absent_options_skipped two_option_catalog stale_selection Normal _ eq_refl)
    as [Habsent [Hout _]].
  split.
  - apply Habsent. reflexivity.
  - rewrite Hout. reflexivity.
Defined.

(** C6: every command of the set_hostname option that contains
    'hostnamectl set-hostname' is emitted with ' {hostname}' appended, before
    any redirection; with the selection {set_hostname: true} in Normal mode
    the emitted command line is 'hostnamectl set-hostname {hostname}'. *)
Theorem set_hostname_placeholder :
  (forall cmd,
      contains "hostnamectl set-hostname" cmd = true ->
      config_command "set_hostname" Normal cmd = cmd ++ " {hostname}" /\
      config_command "set_hostname" Quiet cmd
        = cmd ++ " {hostname}"
            ++ (if should_quiet_redirect (cmd ++ " {hostname}")
                then " > /dev/null 2>&1" else "")) /\
  (forall distro_data sc o output_mode,
      system_config distro_data = Some sc ->
      get sc "set_hostname" = Some (SysOpt o) ->
      config_item sc output_mode ("set_hostname", true)
        = Ok (("# " ++ so_description o)
                :: (map (config_command "set_hostname" output_mode)
                        (command_list (so_command o)) ++ [""])%list)) /\
  (forall distro_data sc o essential apps script,
      system_config distro_data = Some sc ->
      get sc "set_hostname" = Some (SysOpt o) ->
      command_list (so_command o) = ["hostnamectl set-hostname"] ->
      fst (build_system_config distro_data
             {| sel_system_config := [("set_hostname", true)];
                sel_essential_apps := essential; sel_categories := apps;
                sel_custom_script := script |} Normal)
        = Ok (join nl ["# " ++ so_description o;
                       "hostnamectl set-hostname {hostname}";
                       ""])).
Proof.
  split; [|split].
  - intros cmd H. unfold config_command. rewrite H. cbn [String.eqb andb is_quiet].
    replace (String.eqb "set_hostname" "set_hostname") with true by reflexivity.
    cbn [andb get_default PLACEHOLDERS get]. cbn.
    split; [reflexivity|].
    destruct (should_quiet_redirect (cmd ++ " {hostname}")).
    + now rewrite append_assoc.
    + reflexivity.
  - intros distro_data sc o output_mode _ H.
    now rewrite (config_item_option sc output_mode "set_hostname" H).
  - intros distro_data sc o essential apps script Hsc H Hcmd.
    unfold build_system_config; cbn [fst]. rewrite Hsc; cbn [getcat bind].
    unfold check_dependencies; cbn [sel_system_config].
    replace (codecs_selected [("set_hostname", true)]) with false by reflexivity.
    cbn [sel_system_config for_each].
    rewrite (config_item_option sc Normal "set_hostname" H). cbn [bind app for_each].
    unfold option_block. rewrite Hcmd. reflexivity.
Qed.

Lemma set_hostname_placeholder_witness :
  config_command "set_hostname" Quiet "sudo hostnamectl set-hostname"
    = "sudo hostnamectl set-hostname {hostname} > /dev/null 2>&1" /\
  fst (build_system_config two_option_catalog
         {| sel_system_config := [("set_hostname", true)];
            sel_essential_apps := []; sel_categories := [];
            sel_custom_script := None |} Normal)
    = Ok (join nl ["# Set the hostname"; "hostnamectl set-hostname {hostname}"; ""]).
Proof.
  destruct set_hostname_placeholder as [Hcmd [_ Hbuild]].
  split.
  - apply (proj2 (Hcmd "sudo hostnamectl set-hostname" eq_refl)).
  - apply (Hbuild two_option_catalog _
             {| so_name := "Hostname"; so_description := "Set the hostname";
                so_command := Multi ["hostnamectl set-hostname"] |}
             [] [] None eq_refl eq_refl eq_refl).
Defined.

(** ** App-install emitter *)

Lemma add_app_install_commands_none (distro_data : Catalog) (options : Selection)
    (output_mode : OutputMode) :
  sel_categories options = [] ->
  for_each (add_app_install_commands distro_data options output_mode)
    additional_categories [] = Ok [].
Proof.
  intros H. unfold add_app_install_commands. rewrite H. reflexivity.
Qed.

(** C7: when at least one application of the catalog's essential list is
    selected, build_app_install starts its text with a comment, the
    installing status line, one dnf install command naming every selected
    essential application (those of the catalog's list, looked up by name in
    the selection) separated by spaces and followed by the redirection in
    Quiet mode, the installed-successfully status line and a blank line;
    for the catalog [git, vim] and the selection {git: true, vim: false} in
    Quiet mode the command line is 'dnf install -y git > /dev/null 2>&1'. *)
Theorem essential_apps_block :
  (forall (distro_data : Catalog) (options : Selection) (output_mode : OutputMode)
          (ess : EssentialCat),
      essential_apps distro_data = Some ess ->
      (exists app, In app (ess_apps ess) /\
                   get (sel_essential_apps options) (ea_name app) = Some true) ->
      let names :=
        map ea_name
          (filter (fun app => get_default (sel_essential_apps options) (ea_name app) false)
                  (ess_apps ess)) in
      let block :=
        ["# Install essential applications";
         "log_message " ++ dq ++ "Installing essential applications..." ++ dq;
         "dnf install -y " ++ join " " names
           ++ match output_mode with Quiet => " > /dev/null 2>&1" | Normal => "" end;
         "log_message " ++ dq ++ "Essential applications installed successfully." ++ dq;
         ""] in
      names <> [] /\
      build_app_install distro_data options output_mode
        = (rest <- for_each (add_app_install_commands distro_data options output_mode)
                     additional_categories [] ;;
           Ok (join nl (block ++ rest)%list)) /\
      (sel_categories options = [] ->
       build_app_install distro_data options output_mode = Ok (join nl block))) /\
  build_app_install git_vim_catalog (git_selection false) Quiet
    = Ok (join nl
            ["# Install essential applications";
             "log_message " ++ dq ++ "Installing essential applications..." ++ dq;
             "dnf install -y git > /dev/null 2>&1";
             "log_message " ++ dq ++ "Essential applications installed successfully." ++ dq;
             ""]).
Proof.
  split; [|reflexivity].
  intros distro_data options output_mode ess Hess [app [Hin Hsel]] names block.
  assert (Hne : selected_essential ess options <> []).
  { unfold selected_essential. intros Hnil.
    assert (Hf : In app (filter (fun app => get_default (sel_essential_apps options)
                                              (ea_name app) false) (ess_apps ess))).
    { apply filter_In. split; [exact Hin|]. unfold get_default. now rewrite Hsel. }
    rewrite Hnil in Hf. exact Hf. }
  assert (Hblock : essential_block (selected_essential ess options) output_mode = block).
  { unfold essential_block. destruct (selected_essential ess options) eqn:E; [now elim Hne|].
    unfold block, names. fold (selected_essential ess options). rewrite E.
    unfold log_message, quiet_redirect. now destruct output_mode. }
  assert (Hbuild :
    build_app_install distro_data options output_mode
    = (rest <- for_each (add_app_install_commands distro_data options output_mode)
                 additional_categories [] ;;
       Ok (join nl (block ++ rest)%list))).
  { unfold build_app_install. rewrite Hess; cbn [getcat bind].
    rewrite for_each_acc, Hblock.
    now destruct (for_each _ additional_categories []). }
  split; [|split].
  - unfold names. fold (selected_essential ess options).
    destruct (selected_essential ess options); [now elim Hne | discriminate].
  - exact Hbuild.
  - intros Hnone. rewrite Hbuild, (add_app_install_commands_none _ _ _ Hnone).
    cbn [bind]. now rewrite app_nil_r.
Qed.

Lemma essential_apps_block_witness :
  build_app_install git_vim_catalog (git_selection true) Normal
    = Ok (join nl
            ["# Install essential applications";
             "log_message " ++ dq ++ "Installing essential applications..." ++ dq;
             "dnf install -y git vim";
             "log_message " ++ dq ++ "Essential applications installed successfully." ++ dq;
             ""]).
Proof.
  apply (proj1 essential_apps_block git_vim_catalog (git_selection true) Normal
           {| ess_apps := [ {| ea_name := "git"; ea_command := "n/a" |};
                            {| ea_name := "vim"; ea_command := "n/a" |} ] |}
           eq_refl).
  - exists {| ea_name := "vim"; ea_command := "n/a" |}. split.
    + right; left; reflexivity.
    + reflexivity.
  - reflexivity.
Defined.

(** ** Options enumerator *)

(** C5, as stated, fails: a catalog that is not empty and lacks
    system_config makes generate_options raise the key error of
    'system_config'; no empty default is used for it. *)
Lemma generate_options_missing_system_config :
  catalog_is_empty essential_only_catalog = false /\
  generate_options essential_only_catalog = Raise (KeyError "system_config").
Proof. split; reflexivity. Qed.

(** C5, amended: generate_options returns the empty structure, raising
    nothing, on the empty catalog; on a catalog that has system_config and
    essential_apps it raises nothing, and each of the six additional
    categories that is missing gets the empty defaults, name '' and no
    apps; on a non-empty catalog without system_config, or with
    system_config and without essential_apps, it raises the key error of the
    missing one. *)
Theorem generate_options_missing_categories :
  generate_options empty_catalog = Ok [] /\
  (forall distro_data sc ea,
      system_config distro_data = Some sc ->
      essential_apps distro_data = Some ea ->
      exists options,
        generate_options distro_data = Ok options /\
        forall category,
          In category additional_categories ->
          get (categories distro_data) category = None ->
          get options category = Some (OptCat {| co_name := ""; co_apps := [] |})) /\
  (forall distro_data,
      catalog_is_empty distro_data = false ->
      system_config distro_data = None ->
      generate_options distro_data = Raise (KeyError "system_config")) /\
  (forall distro_data sc,
      system_config distro_data = Some sc ->
      essential_apps distro_data = None ->
      generate_options distro_data = Raise (KeyError "essential_apps")).
Proof.
  split; [reflexivity|]. split; [|split].
  - intros distro_data sc ea Hsc Hea. unfold generate_options, catalog_is_empty.
    rewrite Hsc, Hea. cbn [getcat bind]. eexists. split; [reflexivity|].
    intros category Hin Hnone. cbn in Hin.
    decompose [or] Hin; clear Hin; try contradiction; subst category; cbn;
      unfold get_default; rewrite Hnone; reflexivity.
  - intros distro_data Hne Hsc. unfold generate_options. now rewrite Hne, Hsc.
  - intros distro_data sc Hsc Hea. unfold generate_options, catalog_is_empty.
    now rewrite Hsc, Hea.
Qed.

Lemma generate_options_missing_categories_witness :
  (exists options,
      generate_options gaming_only_catalog = Ok options /\
      get options "internet_apps" = Some (OptCat {| co_name := ""; co_apps := [] |})) /\
  generate_options essential_only_catalog = Raise (KeyError "system_config") /\
  generate_options
    {| system_config := Some []; essential_apps := None; categories := [] |}
    = Raise (KeyError "essential_apps").
Proof.
  destruct generate_options_missing_categories as [_ [Hdef [Hsys Hess]]].
  split; [|split].
  - destruct (Hdef gaming_only_catalog _ _ eq_refl eq_refl) as [options [Hok Hcat]].
    exists options. split; [exact Hok|].
    apply Hcat; [left; reflexivity | reflexivity].
  - apply Hsys; reflexivity.
  - apply Hess with (sc := []); reflexivity.
Defined.

(** ** Installation types *)

Lemma app_commands_variant (app_data : App) (category_data : dict AppChoice)
    (app_id t : string) (types : dict InstallType) (choice : AppChoice) (v : InstallType) :
  app_installation_types app_data = Some types ->
  get category_data app_id = Some choice ->
  installation_type choice = Some (Some t) ->
  t <> "" ->
  get types t = Some v ->
  app_commands app_data category_data app_id = Ok (it_command v).
Proof.
  intros Ht Hc Hi Hne Hv. unfold app_commands, getitem, mem.
  rewrite Ht, Hc; cbn [bind]. rewrite Hi; cbn [getcat bind truthy_type].
  destruct (String.eqb t "") eqn:E; [apply String.eqb_eq in E; contradiction|].
  now rewrite Hv.
Qed.

Lemma app_commands_fallback (app_data : App) (category_data : dict AppChoice)
    (app_id : string) (types : dict InstallType) (choice : AppChoice)
    (install_type : option string) :
  app_installation_types app_data = Some types ->
  get category_data app_id = Some choice ->
  installation_type choice = Some install_type ->
  (install_type = None \/ install_type = Some "" \/
   exists t, install_type = Some t /\ get types t = None) ->
  app_commands app_data category_data app_id = getcat (app_command app_data) "command".
Proof.
  intros Ht Hc Hi H. unfold app_commands, getitem, mem.
  rewrite Ht, Hc; cbn [bind]. rewrite Hi; cbn [getcat bind].
  destruct H as [-> | [-> | [t [-> Hnone]]]]; try reflexivity.
  cbn [truthy_type]. destruct (String.eqb t ""); [reflexivity|]. now rewrite Hnone.
Qed.

Lemma app_commands_missing_type (app_data : App) (category_data : dict AppChoice)
    (app_id : string) (types : dict InstallType) (choice : AppChoice) :
  app_installation_types app_data = Some types ->
  get category_data app_id = Some choice ->
  installation_type choice = None ->
  app_commands app_data category_data app_id = Raise (KeyError "installation_type").
Proof.
  intros Ht Hc Hi. unfold app_commands, getitem.
  rewrite Ht, Hc; cbn [bind]. now rewrite Hi.
Qed.

(** C4: for an application that declares installation_types, a selection
    entry with a valid installation_type gets the variant's command and one
    whose installation_type is None, empty or unknown gets the default
    command; a selection entry without any installation_type key makes
    build_app_install raise the key error of 'installation_type', where the
    claim has the default command. *)
Theorem installation_type_missing_raises :
  build_app_install firefox_catalog (firefox_selection (Some (Some "flatpak"))) Normal
    = Ok (firefox_lines "flatpak install -y flathub org.mozilla.firefox") /\
  build_app_install firefox_catalog (firefox_selection (Some (Some "snap"))) Normal
    = Ok (firefox_lines "dnf install -y firefox") /\
  build_app_install firefox_catalog (firefox_selection (Some (Some ""))) Normal
    = Ok (firefox_lines "dnf install -y firefox") /\
  build_app_install firefox_catalog (firefox_selection (Some None)) Normal
    = Ok (firefox_lines "dnf install -y firefox") /\
  build_app_install firefox_catalog (firefox_selection None) Normal
    = Raise (KeyError "installation_type").
Proof. repeat split; reflexivity. Qed.

(** * Further properties *)

(** ** Custom script *)

Lemma lstrip_spaces (pre t : string) :
  all_space pre = true -> lstrip (pre ++ t) = lstrip t.
Proof.
  induction pre as [|c pre IH]; simpl; [reflexivity|].
  intros H. apply andb_true_iff in H as [Hc Hpre]. rewrite Hc. now apply IH.
Qed.

Lemma rstrip_all_space (s : string) : all_space s = true -> rstrip s = "".
Proof.
  induction s as [|c s IH]; simpl; [reflexivity|].
  intros H. apply andb_true_iff in H as [Hc Hs]. now rewrite (IH Hs), Hc.
Qed.

Lemma rstrip_spaces (body post : string) :
  all_space post = true -> rstrip (body ++ post) = rstrip body.
Proof.
  intros H. induction body as [|c body IH]; simpl.
  - now apply rstrip_all_space.
  - now rewrite IH.
Qed.

Lemma rstrip_first (c : ascii) (t : string) :
  isspace c = false -> rstrip (String c t) = String c (rstrip t).
Proof. intros H. simpl. rewrite H. now destruct (rstrip t). Qed.

Lemma rstrip_last (init : string) (cl : ascii) :
  isspace cl = false -> rstrip (init ++ String cl "") = init ++ String cl "".
Proof.
  intros H. induction init as [|c init IH]; simpl.
  - now rewrite H.
  - rewrite IH. now destruct init.
Qed.

Lemma lstrip_shape (s : string) :
  exists pre, s = pre ++ lstrip s /\ all_space pre = true /\
    (lstrip s = "" \/ exists c rest, lstrip s = String c rest /\ isspace c = false).
Proof.
  induction s as [|c s [pre [Heq [Hpre Hshape]]]]; simpl.
  - exists "". auto.
  - destruct (isspace c) eqn:E.
    + exists (String c pre). simpl. rewrite <- Heq, E, Hpre. auto.
    + exists "". split; [reflexivity|]. split; [reflexivity|]. right. now exists c, s.
Qed.

Lemma rstrip_shape (s : string) :
  exists post, s = rstrip s ++ post /\ all_space post = true /\
    (rstrip s = "" \/ exists init cl, rstrip s = init ++ String cl "" /\ isspace cl = false).
Proof.
  induction s as [|c s [post [Heq [Hpost Hshape]]]]; simpl.
  - exists "". auto.
  - destruct (rstrip s) as [|r0 r] eqn:R.
    + simpl in Heq. subst post. destruct (isspace c) eqn:E.
      * exists (String c s). simpl. rewrite E, Hpost. auto.
      * exists s. split; [reflexivity|]. split; [exact Hpost|]. right. now exists "", c.
    + exists post. split; [|split].
      * simpl. f_equal. exact Heq.
      * exact Hpost.
      * right. destruct Hshape as [H | [init [cl [H Hcl]]]]; [discriminate|].
        exists (String c init), cl. simpl. now rewrite H.
Qed.

Lemma strip_body (pre body post rest init : string) (c0 cl : ascii) :
  all_space pre = true -> all_space post = true ->
  body = String c0 rest -> isspace c0 = false ->
  body = init ++ String cl "" -> isspace cl = false ->
  strip (pre ++ body ++ post) = body.
Proof.
  intros Hpre Hpost H0 Hc0 Hl Hcl. unfold strip.
  rewrite lstrip_spaces by exact Hpre.
  replace (lstrip (body ++ post)) with (body ++ post)
    by (rewrite H0; simpl; now rewrite Hc0).
  rewrite rstrip_spaces by exact Hpost. rewrite Hl. now apply rstrip_last.
Qed.

Lemma strip_shape (s : string) :
  exists pre post,
    s = pre ++ strip s ++ post /\ all_space pre = true /\ all_space post = true /\
    (strip s = "" \/
     (exists c0 rest, strip s = String c0 rest /\ isspace c0 = false) /\
     (exists init cl, strip s = init ++ String cl "" /\ isspace cl = false)).
Proof.
  unfold strip.
  destruct (lstrip_shape s) as [pre [Hs [Hpre Hl]]].
  destruct (rstrip_shape (lstrip s)) as [post [Ht [Hpost Hr]]].
  exists pre, post. split; [|split; [exact Hpre|split; [exact Hpost|]]].
  - now rewrite <- Ht.
  - destruct Hr as [Hr | Hr]; [now left | right]. split; [|exact Hr].
    destruct Hl as [Hl | [c [rest [Hl Hc]]]].
    + rewrite Hl in Hr. destruct Hr as [init [cl [Hr _]]]. simpl in Hr.
      destruct init; discriminate.
    + rewrite Hl, rstrip_first by exact Hc. now exists c, (rstrip rest).
Qed.


Lemma lstrip_all_space (s : string) : all_space s = true -> lstrip s = "".
Proof.
  induction s as [|c s IH]; simpl; [reflexivity|].
  intros H. apply andb_true_iff in H as [Hc Hs]. now rewrite Hc, (IH Hs).
Qed.

Lemma all_space_app (a b : string) :
  all_space a = true -> all_space b = true -> all_space (a ++ b) = true.
Proof.
  intros Ha Hb. induction a as [|c a IH]; simpl in *; [exact Hb|].
  apply andb_true_iff in Ha as [Hc Ha]. now rewrite Hc, (IH Ha).
Qed.

(** X1: build_custom_script returns the empty string when the selection has
    no custom script or one of white space only; for a script made of
    leading white space, a body that begins and ends with a character that
    is not white space, and trailing white space, it returns the body
    followed by one line feed; every script is of one of these two kinds. *)
Theorem build_custom_script_spec (options : Selection) (output_mode : OutputMode) :
  (sel_custom_script options = None -> build_custom_script options output_mode = "") /\
  (forall s,
      sel_custom_script options = Some s -> all_space s = true ->
      build_custom_script options output_mode = "") /\
  (forall pre body post rest init c0 cl,
      sel_custom_script options = Some (pre ++ body ++ post) ->
      all_space pre = true -> all_space post = true ->
      body = String c0 rest -> isspace c0 = false ->
      body = init ++ String cl "" -> isspace cl = false ->
      build_custom_script options output_mode = body ++ nl) /\
  (forall s,
      sel_custom_script options = Some s ->
      all_space s = true \/
      exists pre body post rest init c0 cl,
        s = pre ++ body ++ post /\ all_space pre = true /\ all_space post = true /\
        body = String c0 rest /\ isspace c0 = false /\
        body = init ++ String cl "" /\ isspace cl = false).
Proof.
  unfold build_custom_script. repeat split.
  - intros H. now rewrite H.
  - intros s H Hs. rewrite H; cbn [from_option]. unfold strip.
    now rewrite (lstrip_all_space _ Hs).
  - intros pre body post rest init c0 cl H Hpre Hpost H0 Hc0 Hl Hcl.
    rewrite H; cbn [from_option].
    rewrite (@strip_body pre body post rest init c0 cl) by assumption.
    rewrite H0 at 1. reflexivity.
  - intros s _. destruct (strip_shape s) as [pre [post [Hs [Hpre [Hpost Hshape]]]]].
    destruct Hshape as [Hempty | [[c0 [rest [H0 Hc0]]] [init [cl [Hl Hcl]]]]].
    + left. rewrite Hs, Hempty. simpl. now apply all_space_app.
    + right. exists pre, (strip s), post, rest, init, c0, cl. auto 10.
Qed.

Lemma build_custom_script_spec_witness :
  build_custom_script
    {| sel_system_config := []; sel_essential_apps := []; sel_categories := [];
       sel_custom_script := Some ("  " ++ "echo hi" ++ (nl ++ nl)) |} Quiet
  = "echo hi" ++ nl.
Proof.
  apply (proj1 (proj2 (proj2 (build_custom_script_spec
           {| sel_system_config := []; sel_essential_apps := []; sel_categories := [];
              sel_custom_script := Some ("  " ++ "echo hi" ++ (nl ++ nl)) |} Quiet)))
           "  " "echo hi" (nl ++ nl) "cho hi" "echo h" "e"%char "i"%char);
    reflexivity.
Defined.

(** X2: the text build_custom_script returns is a fixed point: given back as
    the custom script of a selection, it is returned unchanged. *)
Theorem build_custom_script_stable (options options' : Selection)
    (output_mode : OutputMode) :
  sel_custom_script options' = Some (build_custom_script options output_mode) ->
  build_custom_script options' output_mode = build_custom_script options output_mode.
Proof.
  intros H.
  assert (Hout : forall body : string,
             body <> "" -> match body with EmptyString => "" | _ => body ++ nl end = body ++ nl)
    by (intros [|c b] Hb; [now elim Hb | reflexivity]).
  unfold build_custom_script at 1. rewrite H; cbn [from_option]. cbv zeta.
  unfold build_custom_script; cbv zeta.
  destruct (strip_shape (from_option (sel_custom_script options) ""))
    as [pre [post [_ [_ [_ Hshape]]]]].
  remember (strip (from_option (sel_custom_script options) "")) as body eqn:Eb.
  clear Eb H.
  destruct Hshape as [Hempty | [[c0 [rest [H0 Hc0]]] [init [cl [Hl Hcl]]]]].
  - rewrite Hempty. reflexivity.
  - assert (Hne : body <> "") by (rewrite H0; discriminate).
    assert (Hbody : strip (body ++ nl) = body).
    { change (body ++ nl) with ("" ++ body ++ nl).
      now apply (@strip_body "" body nl rest init c0 cl). }
    rewrite (Hout body Hne), Hbody. now apply Hout.
Qed.

Lemma build_custom_script_stable_witness :
  build_custom_script
    {| sel_system_config := []; sel_essential_apps := []; sel_categories := [];
       sel_custom_script := Some ("echo hi" ++ nl) |} Normal
  = build_custom_script
      {| sel_system_config := []; sel_essential_apps := []; sel_categories := [];
         sel_custom_script := Some ("  echo hi  ") |} Normal.
Proof.
  apply build_custom_script_stable. reflexivity.
Defined.

(** ** More on dictionaries and loops *)

Section MoreDictFacts.
Variable V : Type.

Lemma get_In (d : dict V) k v : get d k = Some v -> In (k, v) d.
Proof.
  induction d as [|[k' v'] d IH]; simpl; [discriminate|].
  destruct (String.eqb k' k) eqn:E.
  - apply String.eqb_eq in E. intros [= ->]. left. now subst.
  - intros H. right. now apply IH.
Qed.

Lemma set_absent (d : dict V) k v : get d k = None -> set d k v = (d ++ [(k, v)])%list.
Proof.
  induction d as [|[k' v'] d IH]; simpl; [reflexivity|].
  destruct (String.eqb k' k); [discriminate|]. intros H. now rewrite IH.
Qed.

Lemma keys_set_present (d : dict V) k v v0 :
  get d k = Some v0 -> keys (set d k v) = keys d.
Proof.
  unfold keys. induction d as [|[k' v'] d IH]; simpl; [discriminate|].
  destruct (String.eqb k' k); [reflexivity|]. intros H. simpl. now rewrite IH.
Qed.


End MoreDictFacts.

Section MoreForEach.
Variable A : Type.

Lemma for_each_app (body : A -> result (list string)) (xs ys : list A) (acc : list string) :
  for_each body (xs ++ ys) acc = (lines <- for_each body xs acc ;; for_each body ys lines).
Proof.
  revert acc; induction xs as [|x xs IH]; intros acc; simpl; [reflexivity|].
  destruct (body x); simpl; [apply IH | reflexivity].
Qed.

Lemma for_each_none (body : A -> result (list string)) (xs : list A) (acc : list string) :
  (forall x, In x xs -> body x = Ok []) -> for_each body xs acc = Ok acc.
Proof.
  revert acc; induction xs as [|x xs IH]; intros acc H; simpl; [reflexivity|].
  rewrite (H x (or_introl eq_refl)); simpl. rewrite app_nil_r.
  apply IH. intros y Hy. apply H. now right.
Qed.



Lemma for_each_ext (b1 b2 : A -> result (list string)) (xs : list A) (acc : list string) :
  (forall x, In x xs -> b1 x = b2 x) -> for_each b1 xs acc = for_each b2 xs acc.
Proof.
  revert acc; induction xs as [|x xs IH]; intros acc H; simpl; [reflexivity|].
  rewrite (H x (or_introl eq_refl)). destruct (b2 x); simpl; [|reflexivity].
  apply IH. intros y Hy. apply H. now right.
Qed.

Lemma for_each_same_outcome (b1 b2 : A -> result (list string)) (xs : list A)
    (acc1 acc2 : list string) :
  (forall x, In x xs -> same_outcome (b1 x) (b2 x)) ->
  same_outcome (for_each b1 xs acc1) (for_each b2 xs acc2).
Proof.
  revert acc1 acc2; induction xs as [|x xs IH]; intros acc1 acc2 H; simpl; [exact I|].
  pose proof (H x (or_introl eq_refl)) as Hx.
  destruct (b1 x), (b2 x); simpl in *; try contradiction.
  - apply IH. intros y Hy. apply H. now right.
  - exact Hx.
Qed.

End MoreForEach.

(** ** Dependency resolver, continued *)

(** X3: check_dependencies changes nothing of the selection but the value of
    enable_rpmfusion: every other key of system_config keeps its value (or
    its absence), an enable_rpmfusion that was true stays true, and
    essential_apps, the application categories and the custom script are
    returned as they were. *)
Theorem check_dependencies_frame (options : Selection) :
  (forall key, key <> "enable_rpmfusion" ->
     get (sel_system_config (check_dependencies options)) key
     = get (sel_system_config options) key) /\
  (get (sel_system_config options) "enable_rpmfusion" = Some true ->
   get (sel_system_config (check_dependencies options)) "enable_rpmfusion" = Some true) /\
  sel_essential_apps (check_dependencies options) = sel_essential_apps options /\
  sel_categories (check_dependencies options) = sel_categories options /\
  sel_custom_script (check_dependencies options) = sel_custom_script options.
Proof.
  unfold check_dependencies.
  destruct (codecs_selected (sel_system_config options)); cbn; repeat split; auto.
  - intros key Hkey. apply get_set_other. congruence.
  - intros _. apply get_set_same.
Qed.

Lemma check_dependencies_frame_witness :
  get (sel_system_config
         (check_dependencies
            {| sel_system_config := [("install_amd_codecs", true); ("set_hostname", false)];
               sel_essential_apps := []; sel_categories := [];
               sel_custom_script := None |})) "set_hostname" = Some false.
Proof.
  apply (proj1 (check_dependencies_frame
                  {| sel_system_config := [("install_amd_codecs", true); ("set_hostname", false)];
                     sel_essential_apps := []; sel_categories := [];
                     sel_custom_script := None |}) "set_hostname").
  discriminate.
Defined.

(** X4: check_dependencies keeps the order of the selection's keys: when
    enable_rpmfusion is already a key of system_config the keys are the same
    list, and when it is not and a codec option is true, enable_rpmfusion
    is added after all the others. *)
Theorem check_dependencies_key_order (options : Selection) :
  (forall v, get (sel_system_config options) "enable_rpmfusion" = Some v ->
     keys (sel_system_config (check_dependencies options))
     = keys (sel_system_config options)) /\
  (get (sel_system_config options) "enable_rpmfusion" = None ->
   (get (sel_system_config options) "install_multimedia_codecs" = Some true \/
    get (sel_system_config options) "install_intel_codecs" = Some true \/
    get (sel_system_config options) "install_amd_codecs" = Some true) ->
   sel_system_config (check_dependencies options)
   = (sel_system_config options ++ [("enable_rpmfusion", true)])%list).
Proof.
  unfold check_dependencies. split.
  - intros v Hv. destruct (codecs_selected (sel_system_config options)); [|reflexivity].
    cbn. now apply keys_set_present with (v0 := v).
  - intros Hnone Htrig. apply codecs_selected_true in Htrig. rewrite Htrig. cbn.
    now apply set_absent.
Qed.

Lemma check_dependencies_key_order_witness :
  keys (sel_system_config
          (check_dependencies
             {| sel_system_config := [("enable_rpmfusion", false); ("install_amd_codecs", true)];
                sel_essential_apps := []; sel_categories := [];
                sel_custom_script := None |}))
    = ["enable_rpmfusion"; "install_amd_codecs"] /\
  sel_system_config
    (check_dependencies
       {| sel_system_config := [("install_amd_codecs", true); ("set_hostname", true)];
          sel_essential_apps := []; sel_categories := []; sel_custom_script := None |})
    = [("install_amd_codecs", true); ("set_hostname", true); ("enable_rpmfusion", true)].
Proof.
  split.
  - apply (proj1 (check_dependencies_key_order
                    {| sel_system_config := [("enable_rpmfusion", false); ("install_amd_codecs", true)];
                       sel_essential_apps := []; sel_categories := [];
                       sel_custom_script := None |}) false).
    reflexivity.
  - apply (proj2 (check_dependencies_key_order
                    {| sel_system_config := [("install_amd_codecs", true); ("set_hostname", true)];
                       sel_essential_apps := []; sel_categories := [];
                       sel_custom_script := None |})).
    + reflexivity.
    + right; right. reflexivity.
Defined.

(** ** System-config emitter, continued *)



(** X5: when a codec option is true and the selection has no
    enable_rpmfusion key, the block of enable_rpmfusion comes last in the
    text: after the blocks of all the selection's own options, the codec
    options among them. *)
Theorem forced_rpmfusion_block_last (distro_data : Catalog) (options : Selection)
    (output_mode : OutputMode) (sc : dict SysValue) (o : SysOption) :
  system_config distro_data = Some sc ->
  get sc "enable_rpmfusion" = Some (SysOpt o) ->
  get (sel_system_config options) "enable_rpmfusion" = None ->
  (get (sel_system_config options) "install_multimedia_codecs" = Some true \/
   get (sel_system_config options) "install_intel_codecs" = Some true \/
   get (sel_system_config options) "install_amd_codecs" = Some true) ->
  fst (build_system_config distro_data options output_mode)
  = (config_commands <-
       for_each (config_item sc output_mode) (sel_system_config options) [] ;;
     Ok (join nl (config_commands ++ option_block "enable_rpmfusion" output_mode o)%list)).
Proof.
  intros Hsc Ho Hnone Htrig. unfold build_system_config; cbn [fst].
  rewrite Hsc; cbn [getcat bind].
  unfold check_dependencies. apply codecs_selected_true in Htrig. rewrite Htrig.
  cbn [with_system_config sel_system_config].
  rewrite set_absent by exact Hnone. rewrite for_each_app.
  destruct (for_each (config_item sc output_mode) (sel_system_config options) [])
    as [lines|e]; cbn [bind]; [|reflexivity].
  cbn [for_each]. rewrite (config_item_option sc output_mode "enable_rpmfusion" Ho).
  reflexivity.
Qed.

Lemma forced_rpmfusion_block_last_witness :
  fst (build_system_config codec_catalog
         {| sel_system_config := [("install_amd_codecs", true)];
            sel_essential_apps := []; sel_categories := []; sel_custom_script := None |}
         Quiet)
  = Ok (join nl ["# Install AMD codecs";
                 "dnf swap -y mesa-va-drivers mesa-va-drivers-freeworld > /dev/null 2>&1";
                 "";
                 "# Enable RPM Fusion";
                 "dnf install -y rpmfusion-free-release > /dev/null 2>&1";
                 ""]).
Proof.
  etransitivity.
  - apply (@forced_rpmfusion_block_last codec_catalog _ Quiet codec_system_config
             {| so_name := "RPM Fusion"; so_description := "Enable RPM Fusion";
                so_command := Single "dnf install -y rpmfusion-free-release" |});
      [reflexivity | reflexivity | reflexivity | right; right; reflexivity].
  - reflexivity.
Defined.



(** X7: when no option of the selection is enabled, build_system_config on a
    catalog that has system_config returns the empty text and leaves the
    selection as it was. *)
Theorem build_system_config_nothing_enabled (distro_data : Catalog) (options : Selection)
    (output_mode : OutputMode) (sc : dict SysValue) :
  system_config distro_data = Some sc ->
  (forall key enabled, In (key, enabled) (sel_system_config options) -> enabled = false) ->
  build_system_config distro_data options output_mode = (Ok "", options).
Proof.
  intros Hsc Hoff. unfold build_system_config. rewrite Hsc; cbn [getcat bind].
  assert (Hcodecs : codecs_selected (sel_system_config options) = false).
  { destruct (codecs_selected (sel_system_config options)) eqn:E; [|reflexivity].
    apply codecs_selected_true in E.
    decompose [or] E;
      match goal with H : get _ _ = Some true |- _ =>
        apply get_In in H; apply Hoff in H; discriminate end. }
  unfold check_dependencies. rewrite Hcodecs.
  rewrite for_each_none; [reflexivity|].
  intros [k b] Hin. rewrite (Hoff k b Hin). apply config_item_disabled.
Qed.

Lemma build_system_config_nothing_enabled_witness :
  build_system_config codec_catalog
    {| sel_system_config := [("install_amd_codecs", false); ("description", false)];
       sel_essential_apps := []; sel_categories := []; sel_custom_script := None |}
    Quiet
  = (Ok "",
     {| sel_system_config := [("install_amd_codecs", false); ("description", false)];
        sel_essential_apps := []; sel_categories := []; sel_custom_script := None |}).
Proof.
  apply (@build_system_config_nothing_enabled codec_catalog _ Quiet codec_system_config eq_refl).
  intros key enabled [H | [H | []]]; now injection H as _ <-.
Defined.

Lemma config_item_same_outcome (sc : dict SysValue) (item : string * bool) :
  same_outcome (config_item sc Normal item) (config_item sc Quiet item).
Proof.
  destruct item as [k [|]]; [|exact I].
  unfold config_item, mem, getitem. cbn [andb].
  destruct (get sc k) as [[text|o]|]; cbn; auto.
Qed.

(** X8: the output mode has no part in whether build_system_config fails:
    for the same catalog and selection the Normal and the Quiet call both
    return a text or both raise the same exception. *)
Theorem build_system_config_mode_outcome (distro_data : Catalog) (options : Selection) :
  same_outcome (fst (build_system_config distro_data options Normal))
               (fst (build_system_config distro_data options Quiet)).
Proof.
  unfold build_system_config; cbn [fst].
  destruct (system_config distro_data) as [sc|]; cbn [getcat bind]; [|reflexivity].
  pose proof (@for_each_same_outcome _ (config_item sc Normal) (config_item sc Quiet)
                (sel_system_config (check_dependencies options)) [] []
                (fun x _ => config_item_same_outcome sc x)) as H.
  destruct (for_each (config_item sc Normal) _ []), (for_each (config_item sc Quiet) _ []);
    cbn in *; auto.
Qed.

(** ** App-install emitter, continued *)

Lemma filter_none (A : Type) (f : A -> bool) (l : list A) :
  (forall x, In x l -> f x = false) -> filter f l = [].
Proof.
  induction l as [|x l IH]; simpl; [reflexivity|]. intros H.
  rewrite (H x (or_introl eq_refl)). apply IH. intros y Hy. apply H. now right.
Qed.









(** X10: when no essential application of the catalog is selected and no
    application entry of the selection has selected true, build_app_install
    returns the empty text; it needs nothing of the catalog but
    essential_apps, whatever categories the selection names. *)
Theorem build_app_install_nothing_selected (distro_data : Catalog) (options : Selection)
    (output_mode : OutputMode) (ess : EssentialCat) :
  essential_apps distro_data = Some ess ->
  (forall app, In app (ess_apps ess) ->
     get (sel_essential_apps options) (ea_name app) <> Some true) ->
  (forall category subs name entries app_id choice,
     In (category, subs) (sel_categories options) ->
     In (name, entries) subs ->
     In (app_id, choice) entries ->
     selected choice <> Some true) ->
  build_app_install distro_data options output_mode = Ok "".
Proof.
  intros Hess Hnoess Hnoapp. unfold build_app_install. rewrite Hess; cbn [getcat bind].
  assert (Hsel : selected_essential ess options = []).
  { unfold selected_essential. apply filter_none. intros app Hin.
    specialize (Hnoess app Hin). unfold get_default.
    destruct (get (sel_essential_apps options) (ea_name app)) as [[|]|]; congruence. }
  rewrite Hsel. cbn [essential_block].
  rewrite for_each_none; [reflexivity|].
  intros category _. unfold add_app_install_commands, get_default.
  destruct (get (sel_categories options) category) as [subs|] eqn:E; [|reflexivity].
  apply get_In in E. apply for_each_none.
  intros [name entries] Hin. unfold subcategory_install.
  replace (selected_apps entries) with (@nil string); [reflexivity|].
  unfold selected_apps. rewrite filter_none; [reflexivity|].
  intros [app_id choice] Hc. cbn [snd].
  specialize (Hnoapp category subs name entries app_id choice E Hin Hc).
  destruct (selected choice) as [[|]|]; cbn; congruence.
Qed.

Lemma build_app_install_nothing_selected_witness :
  build_app_install git_vim_catalog
    {| sel_system_config := [];
       sel_essential_apps := [("git", false); ("nano", true)];
       sel_categories :=
         [("internet_apps",
           [("browsers",
             [("firefox", {| selected := Some false; installation_type := None |});
              ("chromium", {| selected := None; installation_type := None |})])])];
       sel_custom_script := None |} Quiet
  = Ok "".
Proof.
  apply (@build_app_install_nothing_selected git_vim_catalog _ Quiet
           {| ess_apps := [ {| ea_name := "git"; ea_command := "n/a" |};
                            {| ea_name := "vim"; ea_command := "n/a" |} ] |} eq_refl).
  - intros app [<- | [<- | []]]; discriminate.
  - intros category subs name entries app_id choice [H | []] Hsub Hentry.
    injection H as <- <-. destruct Hsub as [H | []]. injection H as <- <-.
    destruct Hentry as [H | [H | []]]; injection H as <- <-; discriminate.
Defined.





(** X12: build_app_install reads the selection's application entries only
    under the six names of additional_categories: two selections that agree
    on essential_apps and on those six entries give the same result,
    whatever else they hold and in whatever order. *)
Theorem build_app_install_six_categories (distro_data : Catalog)
    (options options' : Selection) (output_mode : OutputMode) :
  sel_essential_apps options = sel_essential_apps options' ->
  (forall category, In category additional_categories ->
     get (sel_categories options) category = get (sel_categories options') category) ->
  build_app_install distro_data options output_mode
  = build_app_install distro_data options' output_mode.
Proof.
  intros Hess Hcat. unfold build_app_install, selected_essential. rewrite Hess.
  destruct (getcat (essential_apps distro_data) "essential_apps"); cbn [bind]; [|reflexivity].
  rewrite (for_each_ext (add_app_install_commands distro_data options output_mode)
             (add_app_install_commands distro_data options' output_mode));
    [reflexivity|].
  intros category Hin. unfold add_app_install_commands, get_default.
  now rewrite (Hcat category Hin).
Qed.

Lemma build_app_install_six_categories_witness :
  build_app_install firefox_catalog
    {| sel_system_config := [("set_hostname", true)];
       sel_essential_apps := [];
       sel_categories :=
         [("essential_apps", [("tools", [("git", {| selected := Some true;
                                                    installation_type := None |})])]);
          ("internet_apps",
           [("browsers",
             [("firefox", {| selected := Some true;
                             installation_type := Some (Some "rpm") |})])])];
       sel_custom_script := Some "true" |} Quiet
  = build_app_install firefox_catalog (firefox_selection (Some (Some "rpm"))) Quiet.
Proof.
  apply build_app_install_six_categories.
  - reflexivity.
  - intros category Hin. cbn in Hin.
    decompose [or] Hin; try contradiction; subst category; reflexivity.
Defined.

Lemma same_outcome_bind (A B C D : Type) (r1 : result A) (r2 : result B)
    (k1 : A -> result C) (k2 : B -> result D) :
  same_outcome r1 r2 ->
  (forall a b, same_outcome (k1 a) (k2 b)) ->
  same_outcome (bind r1 k1) (bind r2 k2).
Proof. destruct r1, r2; simpl; auto; contradiction. Qed.

Lemma same_outcome_refl (A : Type) (r : result A) : same_outcome r r.
Proof. now destruct r. Qed.

Lemma app_install_outcome (sub : SubCategory) (entries : dict AppChoice)
    (app_id : string) :
  same_outcome (app_install sub entries Normal app_id) (app_install sub entries Quiet app_id).
Proof.
  unfold app_install.
  destruct (getitem (sub_apps sub) app_id) as [app_data|e]; cbn [bind]; [|reflexivity].
  destruct (app_commands app_data entries app_id); cbn [bind]; [exact I | reflexivity].
Qed.

Lemma subcategory_install_outcome (distro_data : Catalog) (category : string)
    (item : string * dict AppChoice) :
  same_outcome (subcategory_install distro_data category Normal item)
               (subcategory_install distro_data category Quiet item).
Proof.
  destruct item as [name entries]. unfold subcategory_install.
  destruct (selected_apps entries) as [|a apps]; [exact I|].
  destruct (getitem (categories distro_data) category) as [cat|e]; cbn [bind]; [|reflexivity].
  destruct (getitem (cat_subs cat) name) as [sub|e]; cbn [bind]; [|reflexivity].
  apply same_outcome_bind; [|intros; exact I].
  apply for_each_same_outcome. intros x _. apply app_install_outcome.
Qed.

(** X13: the output mode has no part in whether build_app_install fails: for
    the same catalog and selection the Normal and the Quiet call both return
    a text or both raise the same exception. *)
Theorem build_app_install_mode_outcome (distro_data : Catalog) (options : Selection) :
  same_outcome (build_app_install distro_data options Normal)
               (build_app_install distro_data options Quiet).
Proof.
  unfold build_app_install.
  destruct (getcat (essential_apps distro_data) "essential_apps") as [ess|e];
    cbn [bind]; [|reflexivity].
  apply same_outcome_bind; [|intros; exact I].
  apply for_each_same_outcome. intros category _.
  unfold add_app_install_commands.
  apply for_each_same_outcome. intros item _. apply subcategory_install_outcome.
Qed.

(** X14: an application without a top-level command cannot take the default:
    when it declares no installation_types, or when the selection's
    installation_type is None, empty or not one of its installation_types,
    reading its commands raises the key error of 'command'. *)
Theorem missing_default_command_raises (app_data : App) (category_data : dict AppChoice)
    (app_id : string) :
  app_command app_data = None ->
  (app_installation_types app_data = None \/
   exists types choice install_type,
     app_installation_types app_data = Some types /\
     get category_data app_id = Some choice /\
     installation_type choice = Some install_type /\
     (install_type = None \/ install_type = Some "" \/
      exists t, install_type = Some t /\ get types t = None)) ->
  app_commands app_data category_data app_id = Raise (KeyError "command").
Proof.
  intros Hcmd [Hnone | [types [choice [ty [Ht [Hc [Hi Hty]]]]]]].
  - unfold app_commands. now rewrite Hnone, Hcmd.
  - rewrite (app_commands_fallback app_data category_data app_id Ht Hc Hi Hty).
    now rewrite Hcmd.
Qed.

Lemma missing_default_command_raises_witness :
  app_commands
    {| app_name := "Firefox"; app_description := "Web browser"; app_command := None;
       app_installation_types :=
         Some [("flatpak", {| it_command := Single "flatpak install -y firefox" |})] |}
    [("firefox", {| selected := Some true; installation_type := Some (Some "snap") |})]
    "firefox"
  = Raise (KeyError "command").
Proof.
  apply missing_default_command_raises; [reflexivity|].
  right. exists [("flatpak", {| it_command := Single "flatpak install -y firefox" |})],
           {| selected := Some true; installation_type := Some (Some "snap") |},
           (Some "snap").
  repeat split. right; right. exists "snap". split; reflexivity.
Defined.

(** ** Options enumerator, continued *)

Lemma generate_options_value (distro_data : Catalog) (sc : dict SysValue) (ea : EssentialCat) :
  system_config distro_data = Some sc ->
  essential_apps distro_data = Some ea ->
  generate_options distro_data
  = Ok (("system_config",
         OptKeys (filter (fun key => negb (String.eqb key "description")) (keys sc)))
        :: ("essential_apps", OptKeys (map ea_name (ess_apps ea)))
        :: map (fun category =>
                  let category_data :=
                    get_default (categories distro_data) category empty_category in
                  (category,
                   OptCat {| co_name := from_option (cat_name category_data) "";
                             co_apps := from_option (cat_apps category_data) [] |}))
               additional_categories).
Proof.
  intros Hsc Hea. unfold generate_options, catalog_is_empty. rewrite Hsc, Hea. reflexivity.
Qed.

(** X15: on a catalog that has system_config and essential_apps,
    generate_options returns the eight categories in one fixed order,
    whatever the order of the catalog; under system_config it lists the
    keys of the catalog's system_config in their order, 'description' left
    out; under essential_apps the names in their order; and for each
    additional category that the catalog has, its name and the keys of its
    apps. *)
Theorem generate_options_shape (distro_data : Catalog) (sc : dict SysValue)
    (ea : EssentialCat) :
  system_config distro_data = Some sc ->
  essential_apps distro_data = Some ea ->
  exists options listed,
    generate_options distro_data = Ok options /\
    keys options = ("system_config" :: all_std_categories)%list /\
    get options "system_config" = Some (OptKeys listed) /\
    (forall key, In key listed <-> In key (keys sc) /\ key <> "description") /\
    get options "essential_apps" = Some (OptKeys (map ea_name (ess_apps ea))) /\
    (forall category cat,
        In category additional_categories ->
        get (categories distro_data) category = Some cat ->
        get options category
        = Some (OptCat {| co_name := from_option (cat_name cat) "";
                          co_apps := from_option (cat_apps cat) [] |})).
Proof.
  intros Hsc Hea. eexists. eexists.
  split; [exact (generate_options_value distro_data Hsc Hea)|].
  split; [reflexivity|]. split; [reflexivity|]. split; [|split; [reflexivity|]].
  - intros key. rewrite filter_In, negb_true_iff, String.eqb_neq. tauto.
  - intros category cat Hin Hcat. cbn in Hin.
    decompose [or] Hin; clear Hin; try contradiction; subst category; cbn;
      unfold get_default; rewrite Hcat; reflexivity.
Qed.

Lemma generate_options_shape_witness :
  exists options listed,
    generate_options gaming_only_catalog = Ok options /\
    keys options = ("system_config" :: all_std_categories)%list /\
    get options "system_config" = Some (OptKeys listed) /\
    (forall key, In key listed <->
                 In key (keys [("description", SysText "System configuration")]) /\
                 key <> "description") /\
    get options "essential_apps" = Some (OptKeys []) /\
    (forall category cat,
        In category additional_categories ->
        get (categories gaming_only_catalog) category = Some cat ->
        get options category
        = Some (OptCat {| co_name := from_option (cat_name cat) "";
                          co_apps := from_option (cat_apps cat) [] |})).
Proof.
  exact (@generate_options_shape gaming_only_catalog
           [("description", SysText "System configuration")] {| ess_apps := [] |}
           eq_refl eq_refl).
Defined.



(** ** System-upgrade emitter *)

(** X17: the two commands of build_system_upgrade come out as the shared
    redirection policy would have them: the status message is never
    redirected and the dnf upgrade is redirected in Quiet mode only; the
    text does not depend on the selection. *)
Theorem build_system_upgrade_policy (options : Selection) (output_mode : OutputMode) :
  build_system_upgrade options output_mode
  = join nl (map (install_command output_mode)
               [log_message "Performing system upgrade... This may take a while...";
                "dnf upgrade -y"]
             ++ [""])%list.
Proof. destruct output_mode; reflexivity. Qed.
